(** * Sensor wrappers of the energy benchmark: snapshot deltas

    A shallow embedding of the two C++ bridge wrappers

      - [sensors/pmt/src/wrapper/wrapper.cc]          (module [Pmt])
      - [sensors/powersensor3/src/wrapper/wrapper.cc] (module [Powersensor3])

    and of the properties their design document states about them.

    Conventions.
    - A C++ [double] is an IEEE-754 binary64 value: [spec_float] with the
      operations of the Standard Library at precision 53 and maximal
      exponent 1024 (round to nearest, ties to even).  The arithmetic the
      delta engine uses is collected in the class [Arith].  What the design
      document says of exact arithmetic is stated on the doubles, for the
      runs in which no addition or subtraction rounds ([exact_add],
      [exact_sub]).
    - A C++ [int] is a [Z]; no arithmetic on it can overflow here (the only
      arithmetic is the loop counter, bounded by a vector length).
    - A call ends in an [outcome]: a value, a thrown exception, or undefined
      behaviour (an index outside a vector).
    - A [std::string] is a [string], a sequence of bytes; a [rust::String]
      is a [string] that is well-formed UTF-8. *)

From Stdlib Require Import ZArith NArith List Ascii String Bool Lia.
From Stdlib Require Import Floats.SpecFloat QArith Qpower DecimalString.
From Stdlib Require Import Sorting.Permutation.
Import ListNotations.

Open Scope string_scope.
Open Scope Z_scope.

(* ================================================================= *)
(** * Outcomes: values, exceptions, undefined behaviour               *)
(* ================================================================= *)

(** What a C++ [throw] can carry across the bridge.  Everything derived from
    [std::exception] has a [what()] text. *)
Inductive exn : Type :=
| runtime_error (what : string)     (* std::runtime_error *)
| std_exception (what : string)     (* another class derived from std::exception *)
| foreign_exception.                (* a thrown value that is no std::exception *)

Inductive outcome (A : Type) : Type :=
| Ok (a : A)
| Throw (e : exn)
| Undefined.

Arguments Ok {A} a.
Arguments Throw {A} e.
Arguments Undefined {A}.

Definition bind {A B : Type} (m : outcome A) (k : A -> outcome B) : outcome B :=
  match m with
  | Ok a => k a
  | Throw e => Throw e
  | Undefined => Undefined
  end.

Notation "x <- m ;; k" := (bind m (fun x => k))
  (at level 61, m at next level, right associativity).

(** [throw e;] *)
Definition throw {A : Type} (e : exn) : outcome A := Throw e.

(** An expression statement [e;]: the value is built and dropped, control
    goes on. *)
Definition discard {A : Type} (a : A) : outcome unit := Ok tt.

(** [try { m } catch (const std::exception& e) { throw std::runtime_error(e.what()); }] *)
Definition rethrow_as_runtime_error {A : Type} (m : outcome A) : outcome A :=
  match m with
  | Throw (runtime_error w) => Throw (runtime_error w)
  | Throw (std_exception w) => Throw (runtime_error w)
  | other => other
  end.

Definition is_throw {A : Type} (o : outcome A) : bool :=
  match o with Throw _ => true | _ => false end.

(** [for (int i = lo; i < hi; i++) acc = body(i, acc);] *)
Fixpoint for_range {A : Type} (count : nat) (i : Z)
    (body : Z -> A -> outcome A) (acc : A) : outcome A :=
  match count with
  | O => Ok acc
  | S count' => acc' <- body i acc ;; for_range count' (i + 1) body acc'
  end.

Definition for_loop {A : Type} (lo hi : Z)
    (body : Z -> A -> outcome A) (acc : A) : outcome A :=
  for_range (Z.to_nat (hi - lo)) lo body acc.

(** [std::to_string(int)] *)
Definition to_string (z : Z) : string := NilZero.string_of_int (Z.to_int z).

(* ================================================================= *)
(** * Strings across the bridge                                       *)
(* ================================================================= *)

(** The byte [c] lies in [lo .. hi]. *)
Definition byte_in (lo hi : N) (c : ascii) : bool :=
  ((lo <=? N_of_ascii c) && (N_of_ascii c <=? hi))%N.

(** A continuation byte, [0x80 .. 0xBF]. *)
Definition continuation (c : ascii) : bool := byte_in 128 191 c.

(** Well-formed UTF-8, as the bridge checks it when it builds a
    [rust::String]: one byte [00..7F]; two bytes [C2..DF] and a continuation;
    three bytes [E0][A0..BF], [E1..EC], [ED][80..9F] or [EE..EF], each with
    continuations after; four bytes [F0][90..BF], [F1..F3] or [F4][80..8F],
    each with continuations after.  No overlong form, no surrogate, nothing
    above U+10FFFF. *)
Fixpoint is_utf8 (s : string) : bool :=
  match s with
  | EmptyString => true
  | String c0 s1 =>
    if byte_in 0 127 c0 then is_utf8 s1
    else
      match s1 with
      | EmptyString => false
      | String c1 s2 =>
        if byte_in 194 223 c0 then continuation c1 && is_utf8 s2
        else
          match s2 with
          | EmptyString => false
          | String c2 s3 =>
            if byte_in 224 224 c0 then
              byte_in 160 191 c1 && continuation c2 && is_utf8 s3
            else if byte_in 225 236 c0 || byte_in 238 239 c0 then
              continuation c1 && continuation c2 && is_utf8 s3
            else if byte_in 237 237 c0 then
              byte_in 128 159 c1 && continuation c2 && is_utf8 s3
            else
              match s3 with
              | EmptyString => false
              | String c3 s4 =>
                if byte_in 240 240 c0 then
                  byte_in 144 191 c1 && continuation c2 && continuation c3
                  && is_utf8 s4
                else if byte_in 241 243 c0 then
                  continuation c1 && continuation c2 && continuation c3
                  && is_utf8 s4
                else if byte_in 244 244 c0 then
                  byte_in 128 143 c1 && continuation c2 && continuation c3
                  && is_utf8 s4
                else false
              end
          end
      end
  end.

(** Every byte is below [0x80]. *)
Fixpoint is_ascii (s : string) : bool :=
  match s with
  | EmptyString => true
  | String c s' => byte_in 0 127 c && is_ascii s'
  end.

(** The text of the exception of a failed conversion. *)
Definition not_utf8 : string := "data for rust::String is not utf-8".

(** [rust::String(const std::string &)], the conversion of the bridge
    library: the same bytes when they are well-formed UTF-8, and
    [std::invalid_argument] (a class derived from [std::exception])
    otherwise. *)
Definition rust_String (s : string) : outcome string :=
  if is_utf8 s then Ok s else throw (std_exception not_utf8).

(* ================================================================= *)
(** * Arithmetic                                                      *)
(* ================================================================= *)

(** The operations [Joules] needs: the literal [0], [+=] and [-=]/[-]. *)
Class Arith (F : Type) : Type := {
  fzero : F;
  fadd : F -> F -> F;
  fsub : F -> F -> F
}.

(** [Watt] also divides. *)
Class ArithDiv (F : Type) `{Arith F} : Type := {
  fdiv : F -> F -> F
}.

(** C++ [double]. *)
Definition double : Type := spec_float.

#[export] Instance double_Arith : Arith double := {
  fzero := S754_zero false;
  fadd := SFadd 53 1024;
  fsub := SFsub 53 1024
}.

#[export] Instance double_ArithDiv : ArithDiv double := {
  fdiv := SFdiv 53 1024
}.

(** Exact arithmetic: [Joules] read over the rationals, to say what a swap
    of the snapshots would do if nothing rounded.  The program runs on
    [double]; there is no division here, [Watt] is only read over
    [double]. *)
#[export] Instance Q_Arith : Arith Q := {
  fzero := 0%Q;
  fadd := Qplus;
  fsub := Qminus
}.

(** The double nearest to an integer, to write readings down. *)
Definition double_of_Z (z : Z) : double := binary_normalize 53 1024 z 0 false.

(** The double nearest to [n / d]. *)
Definition double_of_ratio (n d : Z) : double :=
  fdiv (double_of_Z n) (double_of_Z d).

(** Neither an infinity nor a NaN. *)
Definition is_finite (x : double) : bool :=
  match x with
  | S754_zero _ | S754_finite _ _ _ => true
  | S754_infinity _ | S754_nan => false
  end.

(** Numerically zero ([+0] or [-0]). *)
Definition is_zero (x : double) : bool :=
  match x with
  | S754_zero _ => true
  | _ => false
  end.

(** [x <= 0] on doubles (false on NaN, as in C++). *)
Definition double_le0 (x : double) : bool := SFleb x (S754_zero false).

(** [x < 0] on doubles. *)
Definition double_lt0 (x : double) : bool := SFltb x (S754_zero false).

(* ================================================================= *)
(** * Snapshots                                                       *)
(* ================================================================= *)

(** Modelled from the spec: [pmt::State] is a type of the PMT library
    ([<pmt.h>]), which is not part of this repository's sources.  The design
    document describes it as an ordered, index-addressable sequence of
    measurement pairs (channel name, cumulative joules) whose length is
    [NrMeasurements], plus the timestamp of the acquisition. *)
Record MeasurementPair (F : Type) : Type := {
  name : string;
  joules : F
}.

Arguments name {F} _.
Arguments joules {F} _.
Arguments Build_MeasurementPair {F} _ _.

(** Modelled from the spec: the snapshot itself, the sequence of its
    channels in index order and the timestamp of the acquisition. *)
Record State (F : Type) : Type := {
  measurements : list (MeasurementPair F);
  timestamp : F
}.

Arguments measurements {F} _.
Arguments timestamp {F} _.
Arguments Build_State {F} _ _.

(** [state.NrMeasurements()] *)
Definition NrMeasurements {F : Type} (s : State F) : Z :=
  Z.of_nat (List.length (measurements s)).

(** Modelled from the spec: indexing of the sequence, which the design
    document gives as index-addressable with count [NrMeasurements].  An
    index outside [0 .. NrMeasurements-1] is outside the vector (undefined
    behaviour in C++). *)
Definition State_at {F : Type} (s : State F) (i : Z) : outcome (MeasurementPair F) :=
  if (0 <=? i) && (i <? NrMeasurements s) then
    match nth_error (measurements s) (Z.to_nat i) with
    | Some p => Ok p
    | None => Undefined
    end
  else Undefined.

(** [state.joules(i)] *)
Definition State_joules {F : Type} (s : State F) (i : Z) : outcome F :=
  p <- State_at s i ;; Ok (joules p).

(** [state.name(i)], a [std::string]. *)
Definition State_name {F : Type} (s : State F) (i : Z) : outcome string :=
  p <- State_at s i ;; Ok (name p).

(** Modelled from the spec: [PMT::seconds] belongs to the PMT library; the
    design document gives it as [end.timestamp - start.timestamp]. *)
Definition PMT_seconds {F : Type} `{Arith F} (firstState secondState : State F) : F :=
  fsub (timestamp secondState) (timestamp firstState).

(** The readings of a snapshot, in channel order. *)
Definition readings {F : Type} (s : State F) : list F :=
  map joules (measurements s).

(** [acc + x0 + x1 + ...], added from the left as the first loop does. *)
Definition add_all {F : Type} `{Arith F} (acc : F) (xs : list F) : F :=
  fold_left fadd xs acc.

(** [acc - x0 - x1 - ...], subtracted from the left as the second loop does. *)
Definition sub_all {F : Type} `{Arith F} (acc : F) (xs : list F) : F :=
  fold_left fsub xs acc.

(** The sum of a list of rationals. *)
Definition Qsum (xs : list Q) : Q := fold_right Qplus 0%Q xs.

(* ================================================================= *)
(** * Runs without rounding                                           *)
(* ================================================================= *)

(** The rational a finite double stands for: [(-1)^s * m * 2^e], and 0 for a
    zero.  (An infinity or a NaN stands for no rational; the predicates
    below ask for finite doubles before they look at a value.) *)
Definition Qval (x : double) : Q :=
  match x with
  | S754_finite s m e => (inject_Z (cond_Zopp s (Z.pos m)) * 2 ^ e)%Q
  | _ => 0%Q
  end.

(** The addition [x + y] on doubles is exact: operands and result are
    finite, and the result stands for the sum of what the operands stand
    for. *)
Definition exact_add (x y : double) : bool :=
  is_finite x && is_finite y && is_finite (fadd x y)
  && Qeq_bool (Qval (fadd x y)) (Qval x + Qval y).

(** The subtraction [x - y] on doubles is exact. *)
Definition exact_sub (x y : double) : bool :=
  is_finite x && is_finite y && is_finite (fsub x y)
  && Qeq_bool (Qval (fsub x y)) (Qval x - Qval y).

(** No step of [acc + x0 + x1 + ...] rounds. *)
Fixpoint adds_exactly (acc : double) (xs : list double) : bool :=
  match xs with
  | [] => true
  | x :: xs' => exact_add acc x && adds_exactly (fadd acc x) xs'
  end.

(** No step of [acc - x0 - x1 - ...] rounds. *)
Fixpoint subs_exactly (acc : double) (xs : list double) : bool :=
  match xs with
  | [] => true
  | x :: xs' => exact_sub acc x && subs_exactly (fsub acc x) xs'
  end.

(** No step of the two loops of the aggregate mode rounds. *)
Definition aggregate_exactly (start end_ : State double) : bool :=
  adds_exactly fzero (readings end_)
  && subs_exactly (add_all fzero (readings end_)) (readings start).



(* ================================================================= *)
(** * The PMT wrapper ([sensors/pmt/src/wrapper/wrapper.cc])          *)
(* ================================================================= *)

Module Pmt.

(** Modelled from the spec: [enum class SensorType : uint8_t] is only
    forward-declared in [wrapper.hpp]; its enumerators come from the
    generated bridge header [lib.rs.h], which is not among the sources.
    The wrapper names one enumerator, [RAPL]; every other value of the
    underlying [uint8_t] is kept with its discriminant. *)
Inductive SensorType : Type :=
| RAPL
| OtherSensorType (discriminant : Z).

(** The part of the PMT library the wrapper calls: the abstract sensor
    [pmt::PMT] with its (non-const) [Read], and the factory of the RAPL
    backend.  A read may change the device, so it returns the device too. *)
Class PmtLibrary : Type := {
  PMT : Type;
  Rapl_Create : outcome PMT;
  PMT_Read : PMT -> outcome (State double) * PMT
}.

(** [std::unique_ptr<PMT> create(const SensorType sensor)] *)
Definition create `{PmtLibrary} (sensor : SensorType) : outcome PMT :=
  match sensor with
  | RAPL => Rapl_Create
  | _ => throw (runtime_error "Unknown sensor type")
  end.

(** [std::unique_ptr<State> read(PMT& device)] *)
Definition read `{PmtLibrary} (device : PMT) : outcome (State double) * PMT :=
  PMT_Read device.

(** [rust::String get_sensor_name(PMT& device, const int sensor_id)] *)
Definition get_sensor_name `{PmtLibrary} (device : PMT) (sensor_id : Z)
    : outcome string * PMT :=
  if sensor_id <? 0 then
    (throw (runtime_error "Invalid sensor id"), device)
  else
    let (st, device') := PMT_Read device in
    (s <- st ;; n <- State_name s sensor_id ;; rust_String n, device').

(** [double Joules(const State &firstState, const State &secondState, const int pairID)] *)
Definition Joules {F : Type} `{Arith F}
    (firstState secondState : State F) (pairID : Z) : outcome F :=
  _ <- (if pairID >? NrMeasurements firstState then
          discard (runtime_error
                     ("Invalid pairID" ++ to_string pairID ++
                      ", maximum value is " ++
                      to_string (NrMeasurements firstState)))
        else Ok tt) ;;
  if pairID >=? 0 then
    e <- State_joules secondState pairID ;;
    s <- State_joules firstState pairID ;;
    Ok (fsub e s)
  else
    joules <- for_loop 0 (NrMeasurements secondState)
                (fun i joules => x <- State_joules secondState i ;; Ok (fadd joules x))
                fzero ;;
    for_loop 0 (NrMeasurements firstState)
      (fun i joules => x <- State_joules firstState i ;; Ok (fsub joules x))
      joules.

(** [double Watt(const State &firstState, const State &secondState, const int pairID)] *)
Definition Watt {F : Type} `{ArithDiv F}
    (firstState secondState : State F) (pairID : Z) : outcome F :=
  j <- Joules firstState secondState pairID ;;
  Ok (fdiv j (PMT_seconds firstState secondState)).

(** [double watts(const State& first, const State& second, const int sensor_id)] *)
Definition watts (first second : State double) (sensor_id : Z) : outcome double :=
  Watt first second sensor_id.

(** The sum of the single-channel deltas, [joules(a, b, 0) + joules(a, b, 1)
    + ...] over the channel indices of [b]: the right-hand side of the
    design document's aggregation property. *)
Definition sum_of_channel_deltas {F : Type} `{Arith F} (a b : State F) : outcome F :=
  for_loop 0 (NrMeasurements b)
    (fun i acc => d <- Joules a b i ;; Ok (fadd acc d))
    fzero.

End Pmt.

(* ================================================================= *)
(** * The PowerSensor3 wrapper ([sensors/powersensor3/src/wrapper/wrapper.cc]) *)
(* ================================================================= *)

Module Powersensor3.

(** The part of the PowerSensor3 library the wrapper calls: the class
    [PowerSensor] (constructor from a device path, const [read] and
    [getPairName]), its [State], and the library's own [Watt]. *)
Class PowerSensor3Library : Type := {
  PowerSensor : Type;
  PS_State : Type;
  PowerSensor_new : string -> outcome PowerSensor;
  PowerSensor_read : PowerSensor -> outcome PS_State;
  PowerSensor_getPairName : PowerSensor -> Z -> outcome string;
  PowerSensor3_Watt : PS_State -> PS_State -> Z -> outcome double
}.

(** [std::unique_ptr<PowerSensor> create(const rust::Str device)] *)
Definition create `{PowerSensor3Library} (device : string) : outcome PowerSensor :=
  rethrow_as_runtime_error (PowerSensor_new device).

(** [std::unique_ptr<State> read(const PowerSensor& sensor)] *)
Definition read `{PowerSensor3Library} (sensor : PowerSensor) : outcome PS_State :=
  rethrow_as_runtime_error (PowerSensor_read sensor).

(** [double calculate_watts(const State& start, const State& end, int pair_id)] *)
Definition calculate_watts `{PowerSensor3Library} (start end_ : PS_State) (pair_id : Z)
    : outcome double :=
  PowerSensor3_Watt start end_ pair_id.

(** [rust::String get_sensor_name(const PowerSensor& sensor, int sensor_id)] *)
Definition get_sensor_name `{PowerSensor3Library} (sensor : PowerSensor) (sensor_id : Z)
    : outcome string :=
  if sensor_id <? 0 then
    throw (runtime_error "Invalid sensor id")
  else
    n <- PowerSensor_getPairName sensor sensor_id ;; rust_String n.

End Powersensor3.

(* ================================================================= *)
(** * Sample data                                                     *)
(* ================================================================= *)

Module Samples.

Definition pair (n : string) (j : double) : MeasurementPair double :=
  Build_MeasurementPair n j.

(** The two-channel scenario of the design document:
    start = {pkg: 100.0, dram: 50.0, t = 0.0}, end = {pkg: 150.0, dram: 55.0, t = 2.0}. *)
Definition scenario_start : State double :=
  Build_State [pair "pkg" (double_of_Z 100); pair "dram" (double_of_Z 50)]
              (double_of_Z 0).

Definition scenario_end : State double :=
  Build_State [pair "pkg" (double_of_Z 150); pair "dram" (double_of_Z 55)]
              (double_of_Z 2).

(** A one-channel snapshot. *)
Definition one_channel : State double :=
  Build_State [pair "pkg" (double_of_Z 100)] (double_of_Z 0).

(** Three channels reading 0.1 J, 0.2 J and 0.3 J. *)
Definition tenths : State double :=
  Build_State [pair "pkg" (double_of_ratio 1 10);
               pair "dram" (double_of_ratio 2 10);
               pair "gpu" (double_of_ratio 3 10)]
              (double_of_Z 0).

(** A snapshot whose only reading is +infinity. *)
Definition saturated : State double :=
  Build_State [pair "pkg" (S754_infinity false)] (double_of_Z 0).

(** [scenario_end] taken again at the instant of [scenario_start]: the two
    timestamps are equal. *)
Definition scenario_end_same_instant : State double :=
  Build_State (measurements scenario_end) (timestamp scenario_start).

(** A scripted PMT device: the list of the results its next reads give. *)
Definition scripted_read (d : list (outcome (State double)))
    : outcome (State double) * list (outcome (State double)) :=
  match d with
  | [] => (Throw (std_exception "no more data"), [])
  | r :: d' => (r, d')
  end.

Definition scripted_pmt : Pmt.PmtLibrary := {|
  Pmt.PMT := list (outcome (State double));
  Pmt.Rapl_Create := Ok [Ok scenario_start; Ok scenario_end];
  Pmt.PMT_Read := scripted_read
|}.

(** A PowerSensor3 device that has been unplugged: its pair names are still
    known, every read fails. *)
Definition unplugged_getPairName (names : list string) (pairID : Z) : outcome string :=
  match nth_error names (Z.to_nat pairID) with
  | Some n => Ok n
  | None => Throw (runtime_error "Invalid pairID")
  end.

Definition unplugged_powersensor : Powersensor3.PowerSensor3Library := {|
  Powersensor3.PowerSensor := list string;
  Powersensor3.PS_State := unit;
  Powersensor3.PowerSensor_new := fun _ => Ok ["pair0"; "pair1"];
  Powersensor3.PowerSensor_read := fun _ => Throw (std_exception "device lost");
  Powersensor3.PowerSensor_getPairName := unplugged_getPairName;
  Powersensor3.PowerSensor3_Watt := fun _ _ _ => Ok (S754_zero false)
|}.



(** The scenario's end snapshot with its channels in the other order. *)
Definition scenario_end_reordered : State double :=
  Build_State [pair "dram" (double_of_Z 55); pair "pkg" (double_of_Z 150)]
              (double_of_Z 2).

(** A snapshot taken between the scenario's two. *)
Definition scenario_mid : State double :=
  Build_State [pair "pkg" (double_of_Z 120); pair "dram" (double_of_Z 52)]
              (double_of_Z 1).

(** A channel name in Latin-1, "caf" and the byte [0xE9]: not UTF-8. *)
Definition latin1_name : string :=
  String "c" (String "a" (String "f" (String (ascii_of_N 233) EmptyString))).

Definition latin1_snapshot : State double :=
  Build_State [pair "pkg" (double_of_Z 100); pair latin1_name (double_of_Z 50)]
              (double_of_Z 0).

(** The scenario's start snapshot taken again two seconds later, with no
    energy used in between. *)
Definition scenario_idle_end : State double :=
  Build_State (measurements scenario_start) (double_of_Z 2).

End Samples.

(* ================================================================= *)
(** * Outcomes and loops                                              *)
(* ================================================================= *)

Section Indexing.

Context {F : Type}.

Lemma NrMeasurements_nonneg (s : State F) : 0 <= NrMeasurements s.
Proof. unfold NrMeasurements. lia. Qed.

(** Inside the bounds, indexing finds the element of the sequence. *)
Lemma State_at_in_range (s : State F) (i : Z) :
  0 <= i < NrMeasurements s ->
  exists p, nth_error (measurements s) (Z.to_nat i) = Some p /\ State_at s i = Ok p.
Proof.
  intros Hi. unfold State_at, NrMeasurements in *.
  replace ((0 <=? i) && (i <? Z.of_nat (List.length (measurements s)))) with true
    by (symmetry; apply andb_true_intro; split; [apply Z.leb_le | apply Z.ltb_lt]; lia).
  destruct (nth_error (measurements s) (Z.to_nat i)) as [p|] eqn:E.
  - exists p. split; reflexivity.
  - apply nth_error_None in E. lia.
Qed.

(** Outside the bounds, indexing is undefined. *)
Lemma State_at_out_of_range (s : State F) (i : Z) :
  i < 0 \/ NrMeasurements s <= i -> State_at s i = Undefined.
Proof.
  intros Hi. unfold State_at.
  replace ((0 <=? i) && (i <? NrMeasurements s)) with false; [reflexivity|].
  symmetry. apply andb_false_iff.
  destruct Hi; [left; apply Z.leb_gt | right; apply Z.ltb_ge]; lia.
Qed.

Lemma State_joules_out_of_range (s : State F) (i : Z) :
  i < 0 \/ NrMeasurements s <= i -> State_joules s i = Undefined.
Proof.
  intros Hi. unfold State_joules. now rewrite State_at_out_of_range.
Qed.

(** Indexing never throws. *)
Lemma State_at_no_throw (s : State F) (i : Z) (e : exn) : State_at s i <> Throw e.
Proof.
  unfold State_at.
  destruct ((0 <=? i) && (i <? NrMeasurements s)); [|discriminate].
  destruct (nth_error (measurements s) (Z.to_nat i)); discriminate.
Qed.

Lemma State_joules_no_throw (s : State F) (i : Z) (e : exn) : State_joules s i <> Throw e.
Proof.
  unfold State_joules. pose proof (State_at_no_throw s i) as H.
  destruct (State_at s i); simpl; try discriminate.
  intros Heq. apply (H e0). now inversion Heq.
Qed.

(** The element right after a prefix. *)
Lemma State_at_after_prefix (s : State F) (pre : list (MeasurementPair F)) p post :
  measurements s = (pre ++ p :: post)%list ->
  State_at s (Z.of_nat (List.length pre)) = Ok p.
Proof.
  intros Hm.
  destruct (State_at_in_range s (Z.of_nat (List.length pre))) as [q [Hq ->]].
  - unfold NrMeasurements. rewrite Hm, length_app. simpl. lia.
  - rewrite Nat2Z.id, Hm, nth_error_app2, Nat.sub_diag in Hq by lia.
    simpl in Hq. congruence.
Qed.

(** A loop that folds the readings of the channels from some index on
    computes the fold of the rest of the sequence, and always completes. *)
Lemma for_range_readings (op : F -> F -> F) (s : State F) :
  forall (rest pre : list (MeasurementPair F)) (acc : F),
    measurements s = (pre ++ rest)%list ->
    for_range (List.length rest) (Z.of_nat (List.length pre))
      (fun i a => x <- State_joules s i ;; Ok (op a x)) acc
    = Ok (fold_left op (map joules rest) acc).
Proof.
  induction rest as [|p rest IH]; intros pre acc Hm; simpl.
  - reflexivity.
  - unfold State_joules at 1. rewrite (State_at_after_prefix s pre p rest Hm). simpl.
    replace (Z.of_nat (List.length pre) + 1) with (Z.of_nat (List.length (pre ++ [p])%list))
      by (rewrite length_app; simpl; lia).
    apply IH. now rewrite <- app_assoc.
Qed.

Lemma for_loop_readings (op : F -> F -> F) (s : State F) (acc : F) :
  for_loop 0 (NrMeasurements s)
    (fun i a => x <- State_joules s i ;; Ok (op a x)) acc
  = Ok (fold_left op (readings s) acc).
Proof.
  unfold for_loop, NrMeasurements, readings.
  rewrite Z.sub_0_r, Nat2Z.id.
  apply (for_range_readings op s (measurements s) [] acc). reflexivity.
Qed.

End Indexing.

(* ================================================================= *)
(** * [Joules]: the two modes                                         *)
(* ================================================================= *)

Section JoulesModes.

Context {F : Type} `{Arith F}.

(** With a selector that is not negative, [Joules] is the difference of the
    two indexed readings, whatever the validation test says. *)
Lemma Joules_nonneg (firstState secondState : State F) (pairID : Z) :
  0 <= pairID ->
  Pmt.Joules firstState secondState pairID
  = (e <- State_joules secondState pairID ;;
     s <- State_joules firstState pairID ;;
     Ok (fsub e s)).
Proof.
  intros Hk. unfold Pmt.Joules.
  replace (pairID >=? 0) with true by (symmetry; apply Z.geb_le; lia).
  destruct (pairID >? NrMeasurements firstState); reflexivity.
Qed.

(** With a negative selector, [Joules] adds up every reading of the second
    snapshot, then takes every reading of the first snapshot off. *)
Lemma Joules_negative (firstState secondState : State F) (pairID : Z) :
  pairID < 0 ->
  Pmt.Joules firstState secondState pairID
  = Ok (sub_all (add_all fzero (readings secondState)) (readings firstState)).
Proof.
  intros Hk. unfold Pmt.Joules.
  replace (pairID >=? 0) with false
    by (symmetry; rewrite Z.geb_leb; apply Z.leb_gt; lia).
  replace (pairID >? NrMeasurements firstState) with false
    by (symmetry; rewrite Z.gtb_ltb; apply Z.ltb_ge;
        pose proof (NrMeasurements_nonneg firstState); lia).
  simpl. rewrite (for_loop_readings fadd secondState fzero). simpl.
  rewrite (for_loop_readings fsub firstState). reflexivity.
Qed.

(** The reading of an in-range channel. *)
Lemma State_joules_in_range (s : State F) (i : Z) :
  0 <= i < NrMeasurements s ->
  exists p, nth_error (measurements s) (Z.to_nat i) = Some p
            /\ State_joules s i = Ok (joules p).
Proof.
  intros Hi. destruct (State_at_in_range s i Hi) as [p [Hn Hp]].
  exists p. split; [exact Hn|]. unfold State_joules. now rewrite Hp.
Qed.

(** In single-channel mode, inside the range of both snapshots, [Joules]
    is the difference of the two readings. *)
Lemma Joules_in_range (start end_ : State F) (k : Z) :
  0 <= k < NrMeasurements start ->
  0 <= k < NrMeasurements end_ ->
  exists ps pe,
    nth_error (measurements start) (Z.to_nat k) = Some ps /\
    nth_error (measurements end_) (Z.to_nat k) = Some pe /\
    Pmt.Joules start end_ k = Ok (fsub (joules pe) (joules ps)).
Proof.
  intros Hs He.
  destruct (State_joules_in_range end_ k He) as [pe [Hpe Hje]].
  destruct (State_joules_in_range start k Hs) as [ps [Hps Hjs]].
  exists ps, pe. repeat split; try assumption.
  rewrite Joules_nonneg by lia. rewrite Hje, Hjs. reflexivity.
Qed.

(** [Joules] never throws: its only exception is built and dropped. *)
Lemma Joules_no_throw (firstState secondState : State F) (pairID : Z) (e : exn) :
  Pmt.Joules firstState secondState pairID <> Throw e.
Proof.
  destruct (Z.lt_ge_cases pairID 0) as [Hneg|Hpos].
  - rewrite Joules_negative by exact Hneg. discriminate.
  - rewrite Joules_nonneg by exact Hpos.
    pose proof (State_joules_no_throw secondState pairID) as H2.
    pose proof (State_joules_no_throw firstState pairID) as H1.
    destruct (State_joules secondState pairID) as [x| |]; simpl.
    + destruct (State_joules firstState pairID) as [y| |]; simpl; try discriminate.
      intros Heq. apply (H1 e0). congruence.
    + intros Heq. apply (H2 e0). congruence.
    + discriminate.
Qed.



End JoulesModes.

(* ================================================================= *)
(** * Exact sums over the rationals                                   *)
(* ================================================================= *)



(* ================================================================= *)
(** * Facts of binary64 arithmetic used below                         *)
(* ================================================================= *)

(** A finite double minus itself is [+0]. *)
Lemma fsub_diag_finite (x : double) :
  is_finite x = true -> fsub x x = S754_zero false.
Proof.
  destruct x as [s|s| |s m e]; simpl; try discriminate; intros _.
  - destruct s; reflexivity.
  - unfold SFsub. rewrite Z.sub_diag. reflexivity.
Qed.

(** An infinity or a NaN minus itself is a NaN. *)
Lemma fsub_diag_not_finite (x : double) :
  is_finite x = false -> fsub x x = S754_nan.
Proof.
  destruct x as [s|s| |s m e]; simpl; try discriminate; intros _.
  - destruct s; reflexivity.
  - reflexivity.
Qed.

(** Dividing by a zero never gives a finite double: the quotient is an
    infinity, or a NaN when the dividend is a zero or a NaN. *)
Lemma fdiv_by_zero_not_finite (j z : double) :
  is_zero z = true -> is_finite (fdiv j z) = false.
Proof.
  destruct z as [sz|sz| |sz mz ez]; simpl; try discriminate; intros _.
  destruct j as [sj|sj| |sj mj ej]; reflexivity.
Qed.

(* ================================================================= *)
(** * Sums that do not round                                          *)
(* ================================================================= *)

Lemma exact_add_spec (x y : double) :
  exact_add x y = true ->
  is_finite (fadd x y) = true /\ (Qval (fadd x y) == Qval x + Qval y)%Q.
Proof.
  unfold exact_add. rewrite !andb_true_iff, Qeq_bool_iff. tauto.
Qed.

Lemma exact_sub_spec (x y : double) :
  exact_sub x y = true ->
  is_finite (fsub x y) = true /\ (Qval (fsub x y) == Qval x - Qval y)%Q.
Proof.
  unfold exact_sub. rewrite !andb_true_iff, Qeq_bool_iff. tauto.
Qed.

(** A run of additions without rounding ends on a finite double that stands
    for the exact sum. *)
Lemma add_all_exact (xs : list double) : forall acc : double,
  is_finite acc = true ->
  adds_exactly acc xs = true ->
  is_finite (add_all acc xs) = true
  /\ (Qval (add_all acc xs) == Qval acc + Qsum (map Qval xs))%Q.
Proof.
  induction xs as [|x xs IH]; intros acc Hacc Hex; simpl in *.
  - split; [exact Hacc | ring].
  - apply andb_true_iff in Hex. destruct Hex as [Hstep Hrest].
    destruct (exact_add_spec acc x Hstep) as [Hfin Hval].
    destruct (IH (fadd acc x) Hfin Hrest) as [Hf Hv].
    split; [exact Hf|].
    unfold add_all in *. simpl. rewrite Hv, Hval. ring.
Qed.

Lemma sub_all_exact (xs : list double) : forall acc : double,
  is_finite acc = true ->
  subs_exactly acc xs = true ->
  is_finite (sub_all acc xs) = true
  /\ (Qval (sub_all acc xs) == Qval acc - Qsum (map Qval xs))%Q.
Proof.
  induction xs as [|x xs IH]; intros acc Hacc Hex; simpl in *.
  - split; [exact Hacc | ring].
  - apply andb_true_iff in Hex. destruct Hex as [Hstep Hrest].
    destruct (exact_sub_spec acc x Hstep) as [Hfin Hval].
    destruct (IH (fsub acc x) Hfin Hrest) as [Hf Hv].
    split; [exact Hf|].
    unfold sub_all in *. simpl. rewrite Hv, Hval. ring.
Qed.

(** When no step of the two loops rounds, what the aggregate mode computes
    is finite and stands for the sum of the end readings minus the sum of
    the start readings. *)
Lemma aggregate_exact_value (start end_ : State double) :
  aggregate_exactly start end_ = true ->
  is_finite (sub_all (add_all fzero (readings end_)) (readings start)) = true
  /\ (Qval (sub_all (add_all fzero (readings end_)) (readings start))
      == Qsum (map Qval (readings end_)) - Qsum (map Qval (readings start)))%Q.
Proof.
  unfold aggregate_exactly. intros Hex.
  apply andb_true_iff in Hex. destruct Hex as [Hadd Hsub].
  assert (H0 : is_finite (@fzero double double_Arith) = true) by reflexivity.
  destruct (add_all_exact (readings end_) fzero H0 Hadd) as [Hf1 Hv1].
  destruct (sub_all_exact (readings start) _ Hf1 Hsub) as [Hf2 Hv2].
  split; [exact Hf2|]. rewrite Hv2, Hv1. simpl. ring.
Qed.




(** A finite double that stands for 0 is a zero. *)
Lemma Qval_zero_is_zero (z : double) :
  is_finite z = true -> (Qval z == 0)%Q -> is_zero z = true.
Proof.
  destruct z as [s|s| |s m e]; simpl; try discriminate; try reflexivity.
  intros _ Hz. exfalso.
  destruct (Qmult_integral _ _ Hz) as [Hm|Hp].
  - destruct s; discriminate Hm.
  - revert Hp. apply Qpower_not_0. discriminate.
Qed.

(** The sum of the rationals does not depend on their order. *)
Lemma Qsum_Permutation (xs ys : list Q) :
  Permutation xs ys -> (Qsum xs == Qsum ys)%Q.
Proof.
  induction 1 as [|x l l' _ IH|x y l|l l' l'' _ IH1 _ IH2]; simpl.
  - reflexivity.
  - rewrite IH. reflexivity.
  - ring.
  - rewrite IH1. exact IH2.
Qed.

(* ================================================================= *)
(** * Texts that are UTF-8                                            *)
(* ================================================================= *)

(** A text of bytes below [0x80] is well-formed UTF-8. *)
Lemma is_ascii_is_utf8 (s : string) : is_ascii s = true -> is_utf8 s = true.
Proof.
  induction s as [|c s IH]; simpl; [reflexivity|].
  intros Hs. apply andb_true_iff in Hs. destruct Hs as [Hc Hrest].
  rewrite Hc. apply IH. exact Hrest.
Qed.

(** The conversion returns its argument or throws the one exception. *)
Lemma rust_String_cases (n : string) :
  (is_utf8 n = true /\ rust_String n = Ok n)
  \/ (is_utf8 n = false /\ rust_String n = Throw (std_exception not_utf8)).
Proof.
  unfold rust_String. destruct (is_utf8 n); [left | right]; split; reflexivity.
Qed.

Example is_utf8_pair0 : is_utf8 "pair0" = true.
Proof. reflexivity. Qed.

Example is_utf8_latin1 : is_utf8 Samples.latin1_name = false.
Proof. reflexivity. Qed.

(** "caf" and U+00E9 encoded on two bytes, [C3 A9]. *)
Example is_utf8_two_bytes :
  is_utf8 (String "c" (String "a" (String "f"
            (String (ascii_of_N 195) (String (ascii_of_N 169) EmptyString)))))
  = true.
Proof. reflexivity. Qed.

(** An overlong form of "/" ([C0 AF]) and a surrogate ([ED A0 80]) are refused. *)
Example is_utf8_overlong_and_surrogate :
  is_utf8 (String (ascii_of_N 192) (String (ascii_of_N 175) EmptyString)) = false
  /\ is_utf8 (String (ascii_of_N 237) (String (ascii_of_N 160)
                (String (ascii_of_N 128) EmptyString))) = false.
Proof. split; reflexivity. Qed.

(* ================================================================= *)
(** * The design document's scenario, evaluated                       *)
(* ================================================================= *)

Example scenario_joules_pkg :
  Pmt.Joules Samples.scenario_start Samples.scenario_end 0 = Ok (double_of_Z 50).
Proof. vm_compute. reflexivity. Qed.

Example scenario_joules_dram :
  Pmt.Joules Samples.scenario_start Samples.scenario_end 1 = Ok (double_of_Z 5).
Proof. vm_compute. reflexivity. Qed.

Example scenario_joules_aggregate :
  Pmt.Joules Samples.scenario_start Samples.scenario_end (-1) = Ok (double_of_Z 55).
Proof. vm_compute. reflexivity. Qed.

(** 27.5 = 7740561859543040 * 2^-48. *)
Example scenario_watts_aggregate :
  Pmt.watts Samples.scenario_start Samples.scenario_end (-1)
  = Ok (S754_finite false 7740561859543040 (-48)).
Proof. vm_compute. reflexivity. Qed.

Example scenario_sum_of_channel_deltas :
  Pmt.sum_of_channel_deltas Samples.scenario_start Samples.scenario_end
  = Ok (double_of_Z 55).
Proof. vm_compute. reflexivity. Qed.

(** Snapshots given in the wrong order: the negative delta comes back as it
    is computed. *)
Example scenario_joules_out_of_order :
  Pmt.Joules Samples.scenario_end Samples.scenario_start 0 = Ok (double_of_Z (-50)).
Proof. vm_compute. reflexivity. Qed.

(* ================================================================= *)
(** * Single-channel mode                                             *)
(* ================================================================= *)

(** C1.  For snapshots with the same number of channels and a selector [k]
    with [0 <= k < NrMeasurements], [Joules] returns the reading of channel
    [k] in the second (end) snapshot minus the reading of channel [k] in the
    first (start) snapshot, exactly as the subtraction computes it: nothing
    clamps or corrects a negative difference. *)
Theorem Joules_single_channel {F : Type} `{Arith F}
    (start end_ : State F) (k : Z) :
  NrMeasurements start = NrMeasurements end_ ->
  0 <= k < NrMeasurements end_ ->
  exists ps pe,
    nth_error (measurements start) (Z.to_nat k) = Some ps /\
    nth_error (measurements end_) (Z.to_nat k) = Some pe /\
    Pmt.Joules start end_ k = Ok (fsub (joules pe) (joules ps)).
Proof.
  intros Hn Hk. apply Joules_in_range; [rewrite Hn|]; exact Hk.
Qed.

(** The theorem at the scenario's snapshots in the wrong order, channel 0:
    the result is 100 - 150, a negative double. *)
Lemma Joules_single_channel_witness :
  NrMeasurements Samples.scenario_end = NrMeasurements Samples.scenario_start /\
  0 <= 0 < NrMeasurements Samples.scenario_start /\
  exists ps pe,
    nth_error (measurements Samples.scenario_end) (Z.to_nat 0) = Some ps /\
    nth_error (measurements Samples.scenario_start) (Z.to_nat 0) = Some pe /\
    Pmt.Joules Samples.scenario_end Samples.scenario_start 0
    = Ok (fsub (joules pe) (joules ps)).
Proof.
  split; [reflexivity|]. split; [vm_compute; split; [discriminate | reflexivity]|].
  apply (Joules_single_channel Samples.scenario_end Samples.scenario_start 0).
  - reflexivity.
  - vm_compute. split; [discriminate | reflexivity].
Defined.

(* ================================================================= *)
(** * Aggregate mode                                                  *)
(* ================================================================= *)

(** Against C2 as stated: for the snapshot reading 0.1, 0.2, 0.3 J on both
    sides and selector -5, [Joules] returns 2^-53, which is not a sum over
    all channels of the one minus a sum over all channels of the other:
    the two sums are the same double, and no double minus itself is 2^-53. *)
Lemma Joules_aggregate_is_not_a_difference_of_sums :
  Pmt.Joules Samples.tenths Samples.tenths (-5)
  = Ok (S754_finite false 4503599627370496 (-105))
  /\ forall sum : double, fsub sum sum <> S754_finite false 4503599627370496 (-105).
Proof.
  split; [vm_compute; reflexivity|].
  intros sum. destruct (is_finite sum) eqn:E.
  - rewrite (fsub_diag_finite sum E). discriminate.
  - rewrite (fsub_diag_not_finite sum E). discriminate.
Qed.

(** C2, as the code has it.  Every negative selector (-1, -5, any other)
    puts [Joules] in aggregate mode, with the result of selector -1: the
    readings of all channels of the second snapshot are added to 0 in index
    order, then the readings of all channels of the first snapshot are taken
    off one by one in index order.  On doubles, whenever none of these
    additions and subtractions rounds, the result is finite and stands for
    exactly the sum over the end snapshot minus the sum over the start
    snapshot. *)
Theorem Joules_negative_selector_aggregates (k : Z) :
  k < 0 ->
  (forall (F : Type) (A : Arith F) (start end_ : State F),
      Pmt.Joules start end_ k
      = Ok (sub_all (add_all fzero (readings end_)) (readings start))
      /\ Pmt.Joules start end_ k = Pmt.Joules start end_ (-1))
  /\
  (forall start end_ : State double,
      aggregate_exactly start end_ = true ->
      exists v : double,
        Pmt.Joules start end_ k = Ok v
        /\ is_finite v = true
        /\ (Qval v == Qsum (map Qval (readings end_))
                      - Qsum (map Qval (readings start)))%Q).
Proof.
  intros Hk. split.
  - intros F A start end_. split.
    + apply Joules_negative. exact Hk.
    + rewrite !Joules_negative by lia. reflexivity.
  - intros start end_ Hex.
    destruct (aggregate_exact_value start end_ Hex) as [Hfin Hval].
    eexists. split; [apply Joules_negative; exact Hk|].
    split; [exact Hfin | exact Hval].
Qed.

(** The theorem at selector -5 on the scenario, where nothing rounds:
    (150 + 55) - 100 - 50 = 55. *)
Lemma Joules_negative_selector_aggregates_witness :
  -5 < 0 /\
  aggregate_exactly Samples.scenario_start Samples.scenario_end = true /\
  Pmt.Joules Samples.scenario_start Samples.scenario_end (-5) = Ok (double_of_Z 55) /\
  exists v : double,
    Pmt.Joules Samples.scenario_start Samples.scenario_end (-5) = Ok v
    /\ is_finite v = true
    /\ (Qval v == Qsum (map Qval (readings Samples.scenario_end))
                  - Qsum (map Qval (readings Samples.scenario_start)))%Q.
Proof.
  split; [reflexivity|]. split; [vm_compute; reflexivity|].
  pose proof (Joules_negative_selector_aggregates (-5) eq_refl) as [Hgen Hex].
  split.
  - destruct (Hgen double double_Arith Samples.scenario_start Samples.scenario_end)
      as [Hv _].
    rewrite Hv. vm_compute. reflexivity.
  - apply Hex. vm_compute. reflexivity.
Defined.

(** C10.  In aggregate mode the first loop runs over the channels of the
    second snapshot and the second loop over the channels of the first
    snapshot, each over its own count; nothing compares the two counts.
    Whatever the two counts are, equal or not, [Joules] returns a value,
    the one sum with the other readings taken off, and no error. *)
Theorem Joules_aggregate_mismatched_counts {F : Type} `{Arith F}
    (start end_ : State F) (k : Z) :
  k < 0 ->
  Pmt.Joules start end_ k
  = Ok (sub_all (add_all fzero (readings end_)) (readings start))
  /\ List.length (readings end_) = Z.to_nat (NrMeasurements end_)
  /\ List.length (readings start) = Z.to_nat (NrMeasurements start)
  /\ is_throw (Pmt.Joules start end_ k) = false.
Proof.
  intros Hk.
  rewrite Joules_negative by exact Hk.
  unfold readings, NrMeasurements. rewrite !length_map, !Nat2Z.id.
  repeat split.
Qed.

(** The theorem at a one-channel start and the scenario's two-channel end:
    (150 + 55) - 100 = 105. *)
Lemma Joules_aggregate_mismatched_counts_witness :
  -1 < 0 /\
  NrMeasurements Samples.one_channel <> NrMeasurements Samples.scenario_end /\
  Pmt.Joules Samples.one_channel Samples.scenario_end (-1) = Ok (double_of_Z 105).
Proof.
  split; [reflexivity|]. split; [discriminate|].
  destruct (Joules_aggregate_mismatched_counts
              Samples.one_channel Samples.scenario_end (-1) eq_refl) as [Hv _].
  rewrite Hv. vm_compute. reflexivity.
Defined.




(** Where a step rounds, the two sides of C8 part: for the snapshot reading
    0.1, 0.2, 0.3 J against itself the per-channel deltas add up to [+0],
    the aggregate mode gives 2^-53. *)
Example aggregate_and_sum_of_deltas_on_doubles :
  Pmt.sum_of_channel_deltas Samples.tenths Samples.tenths = Ok (S754_zero false)
  /\ Pmt.Joules Samples.tenths Samples.tenths (-1)
     = Ok (S754_finite false 4503599627370496 (-105)).
Proof. split; vm_compute; reflexivity. Qed.

(* ================================================================= *)
(** * A snapshot against itself                                       *)
(* ================================================================= *)

(** C9, as the code has it.  On doubles.  In single-channel mode, for an
    in-range channel, the delta of a snapshot against itself is [+0] when
    the reading is finite and a NaN when it is not.  In aggregate mode, for
    every negative selector, the delta of a snapshot against itself is [+0]
    when the snapshot has at most one channel, with a finite reading, and it
    is a zero whenever none of the additions and subtractions of the two
    loops rounds. *)
Theorem Joules_self_delta :
  (forall (s : State double) (k : Z) (p : MeasurementPair double),
      0 <= k < NrMeasurements s ->
      nth_error (measurements s) (Z.to_nat k) = Some p ->
      (is_finite (joules p) = true -> Pmt.Joules s s k = Ok (S754_zero false))
      /\ (is_finite (joules p) = false -> Pmt.Joules s s k = Ok S754_nan))
  /\
  (forall (s : State double) (k : Z),
      k < 0 ->
      NrMeasurements s <= 1 ->
      (forall p, In p (measurements s) -> is_finite (joules p) = true) ->
      Pmt.Joules s s k = Ok (S754_zero false))
  /\
  (forall (s : State double) (k : Z),
      k < 0 ->
      aggregate_exactly s s = true ->
      exists z : double, Pmt.Joules s s k = Ok z /\ is_zero z = true).
Proof.
  split; [|split].
  - intros s k p Hk Hp.
    destruct (Joules_in_range s s k Hk Hk) as [ps [pe [Hps [Hpe ->]]]].
    assert (ps = p) by congruence. assert (pe = p) by congruence. subst.
    split; intros Hfin; f_equal.
    + apply fsub_diag_finite. exact Hfin.
    + apply fsub_diag_not_finite. exact Hfin.
  - intros [ms t] k Hk Hn Hfin. rewrite Joules_negative by exact Hk.
    unfold NrMeasurements, readings in *. simpl in *.
    destruct ms as [|p [|q ms]]; simpl in *; [reflexivity| |lia].
    f_equal. specialize (Hfin p (or_introl eq_refl)).
    destruct (joules p) as [sx|sx| |sx mx ex] eqn:E; simpl in Hfin; try discriminate.
    + destruct sx; reflexivity.
    + change (fsub (S754_finite sx mx ex) (S754_finite sx mx ex) = S754_zero false).
      apply fsub_diag_finite. reflexivity.
  - intros s k Hk Hex.
    destruct (aggregate_exact_value s s Hex) as [Hfin Hval].
    eexists. split; [apply Joules_negative; exact Hk|].
    apply Qval_zero_is_zero; [exact Hfin|]. rewrite Hval. ring.
Qed.

(** The theorem at channel 1 of the snapshot reading 0.1, 0.2, 0.3 J, at
    channel 0 of the snapshot reading +infinity, at the aggregate selector
    on the one-channel snapshot, and at the aggregate selector on the
    scenario's start snapshot, where nothing rounds. *)
Lemma Joules_self_delta_witness :
  Pmt.Joules Samples.tenths Samples.tenths 1 = Ok (S754_zero false)
  /\ Pmt.Joules Samples.saturated Samples.saturated 0 = Ok S754_nan
  /\ Pmt.Joules Samples.one_channel Samples.one_channel (-1) = Ok (S754_zero false)
  /\ aggregate_exactly Samples.scenario_start Samples.scenario_start = true
  /\ exists z : double,
       Pmt.Joules Samples.scenario_start Samples.scenario_start (-1) = Ok z
       /\ is_zero z = true.
Proof.
  split; [|split; [|split; [|split]]].
  - apply (proj1 Joules_self_delta Samples.tenths 1
             (Samples.pair "dram" (double_of_ratio 2 10))).
    + vm_compute. split; [discriminate | reflexivity].
    + reflexivity.
    + reflexivity.
  - apply (proj1 Joules_self_delta Samples.saturated 0
             (Samples.pair "pkg" (S754_infinity false))).
    + vm_compute. split; [discriminate | reflexivity].
    + reflexivity.
    + reflexivity.
  - apply (proj1 (proj2 Joules_self_delta) Samples.one_channel (-1)).
    + reflexivity.
    + vm_compute. discriminate.
    + intros p [<- | []]. reflexivity.
  - vm_compute. reflexivity.
  - apply (proj2 (proj2 Joules_self_delta) Samples.scenario_start (-1)).
    + reflexivity.
    + vm_compute. reflexivity.
Defined.

(** Against C9 as stated: on doubles the aggregate delta of a snapshot
    against itself need not be zero.  With readings 0.1, 0.2 and 0.3 J the
    running sum ((0 + 0.1) + 0.2) + 0.3 is rounded, and taking 0.1, 0.2 and
    0.3 off again leaves 2^-53 J. *)
Lemma Joules_self_aggregate_not_zero :
  Pmt.Joules Samples.tenths Samples.tenths (-1)
  = Ok (S754_finite false 4503599627370496 (-105))
  /\ ~ (exists z, Pmt.Joules Samples.tenths Samples.tenths (-1) = Ok z
                  /\ is_zero z = true).
Proof.
  assert (E : Pmt.Joules Samples.tenths Samples.tenths (-1)
              = Ok (S754_finite false 4503599627370496 (-105)))
    by (vm_compute; reflexivity).
  split; [exact E|].
  intros [z [Hz Hzero]]. rewrite E in Hz. inversion Hz; subst. discriminate.
Qed.

(** A reading that is not finite gives a NaN against itself, in
    single-channel mode too. *)
Example Joules_self_infinite_reading :
  Pmt.Joules Samples.saturated Samples.saturated 0 = Ok S754_nan.
Proof. vm_compute. reflexivity. Qed.

(* ================================================================= *)
(** * Selector validation                                             *)
(* ================================================================= *)

(** C5.  The validation at the head of [Joules] compares with a strict [>]
    against the count of the first snapshot and only builds the error
    object: a selector equal to the count does not even reach it, and for a
    selector beyond the count the object is dropped.  In both cases
    [Joules] goes on to index the snapshots with the selector, which is
    outside the first snapshot's sequence; no exception is ever raised. *)
Theorem Joules_validation_swallowed {F : Type} `{Arith F}
    (firstState secondState : State F) (pairID : Z) :
  NrMeasurements firstState <= pairID ->
  Pmt.Joules firstState secondState pairID
  = (e <- State_joules secondState pairID ;;
     s <- State_joules firstState pairID ;;
     Ok (fsub e s))
  /\ State_joules firstState pairID = Undefined
  /\ Pmt.Joules firstState secondState pairID = Undefined
  /\ forall e : exn, Pmt.Joules firstState secondState pairID <> Throw e.
Proof.
  intros Hk. pose proof (NrMeasurements_nonneg firstState) as Hn.
  assert (Hu : State_joules firstState pairID = Undefined)
    by (apply State_joules_out_of_range; right; exact Hk).
  repeat split.
  - apply Joules_nonneg. lia.
  - exact Hu.
  - rewrite Joules_nonneg by lia. rewrite Hu.
    destruct (State_joules secondState pairID) as [x| e |] eqn:E; simpl; try reflexivity.
    exfalso. exact (State_joules_no_throw secondState pairID e E).
  - apply Joules_no_throw.
Qed.

(** The theorem at a one-channel snapshot and selector 2, beyond the count. *)
Lemma Joules_validation_swallowed_witness :
  NrMeasurements Samples.one_channel <= 2 /\
  Pmt.Joules Samples.one_channel Samples.scenario_end 2 = Undefined.
Proof.
  split; [vm_compute; discriminate|].
  apply (Joules_validation_swallowed Samples.one_channel Samples.scenario_end 2).
  vm_compute. discriminate.
Defined.

(** C3, evaluated.  With a one-channel snapshot on both sides, selector 1 is
    the first index outside the range.  [Joules] does not reject it: the
    call indexes outside the sequence.  Selector 2 makes the validation
    test true, and the outcome is the same, since the error is not thrown. *)
Lemma Joules_top_index_not_rejected :
  Pmt.Joules Samples.one_channel Samples.one_channel 1 = Undefined
  /\ Pmt.Joules Samples.one_channel Samples.one_channel 2 = Undefined
  /\ is_throw (Pmt.Joules Samples.one_channel Samples.one_channel 1) = false
  /\ is_throw (Pmt.Joules Samples.one_channel Samples.one_channel 2) = false.
Proof. vm_compute. repeat split. Qed.

(* ================================================================= *)
(** * Power                                                           *)
(* ================================================================= *)

(** Against C4 as stated: with equal timestamps the interval is zero
    ([seconds <= 0]), and [watts] returns +infinity as an ordinary value,
    50 J / 0 s; nothing is thrown. *)
Lemma watts_zero_interval_returns_infinity :
  PMT_seconds Samples.scenario_start Samples.scenario_end_same_instant = S754_zero false
  /\ double_le0 (PMT_seconds Samples.scenario_start Samples.scenario_end_same_instant) = true
  /\ Pmt.watts Samples.scenario_start Samples.scenario_end_same_instant 0
     = Ok (S754_infinity false)
  /\ is_throw (Pmt.watts Samples.scenario_start Samples.scenario_end_same_instant 0) = false.
Proof. vm_compute. repeat split. Qed.

(** A snapshot against itself in aggregate mode, timestamps equal: 0 / 0,
    [watts] returns a NaN as an ordinary value. *)
Example watts_zero_over_zero_returns_nan :
  Pmt.watts Samples.scenario_start Samples.scenario_start (-1) = Ok S754_nan.
Proof. vm_compute. reflexivity. Qed.

(** With the snapshots in the wrong order the interval is negative, and
    [watts] returns the quotient, here (-55 J) / (-2 s) = 27.5 W. *)
Example watts_negative_interval_returns_quotient :
  double_lt0 (PMT_seconds Samples.scenario_end Samples.scenario_start) = true
  /\ Pmt.watts Samples.scenario_end Samples.scenario_start (-1)
     = Ok (S754_finite false 7740561859543040 (-48)).
Proof. vm_compute. split; reflexivity. Qed.

(** C4, as the code has it.  [Watt] (and [watts], which forwards to it) is
    [Joules] divided by [seconds] with the division of binary64 and no test
    of the interval: whenever [Joules] returns a value [j], [Watt] returns
    [j / seconds] as a value, whatever the sign of the interval; it raises no
    exception of its own (none at all); and when the interval is a zero the
    value it returns is not finite, an infinity or a NaN.  When [Joules] ends
    in undefined behaviour, so does [Watt]. *)
Theorem Watt_divides_without_check (start end_ : State double) (k : Z) :
  Pmt.watts start end_ k = Pmt.Watt start end_ k
  /\ (forall e : exn, Pmt.Watt start end_ k <> Throw e)
  /\ (forall j : double,
        Pmt.Joules start end_ k = Ok j ->
        Pmt.Watt start end_ k = Ok (fdiv j (PMT_seconds start end_))
        /\ (is_zero (PMT_seconds start end_) = true ->
            is_finite (fdiv j (PMT_seconds start end_)) = false))
  /\ (Pmt.Joules start end_ k = Undefined -> Pmt.Watt start end_ k = Undefined).
Proof.
  split; [reflexivity|]. split; [|split].
  - intros e. unfold Pmt.Watt.
    pose proof (Joules_no_throw start end_ k) as Hj.
    destruct (Pmt.Joules start end_ k) as [j| e' |]; simpl; try discriminate.
    intros _. exact (Hj e' eq_refl).
  - intros j Hj. split.
    + unfold Pmt.Watt. rewrite Hj. reflexivity.
    + apply fdiv_by_zero_not_finite.
  - intros Hu. unfold Pmt.Watt. rewrite Hu. reflexivity.
Qed.

(** The theorem at the scenario: 55 J over 2 s. *)
Lemma Watt_divides_without_check_witness :
  Pmt.Joules Samples.scenario_start Samples.scenario_end (-1) = Ok (double_of_Z 55)
  /\ Pmt.Watt Samples.scenario_start Samples.scenario_end (-1)
     = Ok (fdiv (double_of_Z 55)
             (PMT_seconds Samples.scenario_start Samples.scenario_end)).
Proof.
  assert (Hj : Pmt.Joules Samples.scenario_start Samples.scenario_end (-1)
               = Ok (double_of_Z 55)) by (vm_compute; reflexivity).
  split; [exact Hj|].
  destruct (Watt_divides_without_check Samples.scenario_start Samples.scenario_end (-1))
    as [_ [_ [Hv _]]].
  destruct (Hv (double_of_Z 55) Hj) as [Hw _]. exact Hw.
Defined.

(* ================================================================= *)
(** * The factory                                                     *)
(* ================================================================= *)

(** C6.  For every sensor type other than [RAPL], [create] throws a runtime
    error with the text "Unknown sensor type" and constructs nothing; for
    [RAPL] it is the RAPL backend's factory, so it returns the handle that
    factory returns. *)
Theorem create_unknown_sensor_type (L : Pmt.PmtLibrary) (sensor : Pmt.SensorType) :
  (sensor <> Pmt.RAPL ->
     Pmt.create sensor = Throw (runtime_error "Unknown sensor type"))
  /\ (sensor = Pmt.RAPL ->
        Pmt.create sensor = Pmt.Rapl_Create
        /\ forall h : Pmt.PMT, Pmt.Rapl_Create = Ok h -> Pmt.create sensor = Ok h).
Proof.
  split.
  - intros Hs. destruct sensor; [contradiction | reflexivity].
  - intros ->. split; [reflexivity|]. intros h Hh. simpl. exact Hh.
Qed.

(** The theorem at the scripted library: discriminant 7 is refused, [RAPL]
    gives the backend's handle. *)
Lemma create_unknown_sensor_type_witness :
  Pmt.OtherSensorType 7 <> Pmt.RAPL
  /\ @Pmt.create Samples.scripted_pmt (Pmt.OtherSensorType 7)
     = Throw (runtime_error "Unknown sensor type")
  /\ @Pmt.create Samples.scripted_pmt Pmt.RAPL
     = Ok [Ok Samples.scenario_start; Ok Samples.scenario_end].
Proof.
  split; [discriminate|]. split.
  - apply (proj1 (create_unknown_sensor_type Samples.scripted_pmt (Pmt.OtherSensorType 7))).
    discriminate.
  - apply (proj2 (create_unknown_sensor_type Samples.scripted_pmt Pmt.RAPL) eq_refl).
    reflexivity.
Defined.

(** The PowerSensor3 factory has no sensor type to refuse: it opens the
    device it is given and passes on the text of whatever the library
    throws. *)
Lemma Powersensor3_create_passes_text (L : Powersensor3.PowerSensor3Library)
    (device : string) :
  (forall h, Powersensor3.PowerSensor_new device = Ok h ->
             Powersensor3.create device = Ok h)
  /\ (forall w, Powersensor3.PowerSensor_new device = Throw (std_exception w) ->
                Powersensor3.create device = Throw (runtime_error w))
  /\ (forall w, Powersensor3.PowerSensor_new device = Throw (runtime_error w) ->
                Powersensor3.create device = Throw (runtime_error w)).
Proof.
  unfold Powersensor3.create. repeat split; intros x Hx; rewrite Hx; reflexivity.
Qed.

(* ================================================================= *)
(** * Channel names                                                   *)
(* ================================================================= *)

(** Against C7 as stated: the PowerSensor3 wrapper does not resolve a name
    through a read: on an unplugged device, where every read fails, [get_sensor_name] still
    returns the name of pair 0. *)
Lemma Powersensor3_get_sensor_name_without_read :
  @Powersensor3.read Samples.unplugged_powersensor ["pair0"; "pair1"]
  = Throw (runtime_error "device lost")
  /\ @Powersensor3.get_sensor_name Samples.unplugged_powersensor ["pair0"; "pair1"] 0
     = Ok "pair0".
Proof. split; reflexivity. Qed.

(** C7, as the code has it.  In both wrappers a negative index fails with
    the runtime error "Invalid sensor id", before the sensor is touched.
    For an index that is not negative, the PMT wrapper performs one read of
    the device, indexes the snapshot it gets for the name and converts the
    name to a [rust::String]; what it throws is what the read throws, or
    the conversion's [std::invalid_argument] when the name found is not
    UTF-8.  The PowerSensor3 wrapper performs no read: it converts what the
    sensor's [getPairName] returns. *)
Theorem get_sensor_name_contract (sensor_id : Z) :
  (forall (L : Pmt.PmtLibrary) (device : Pmt.PMT),
      (sensor_id < 0 ->
         Pmt.get_sensor_name device sensor_id
         = (Throw (runtime_error "Invalid sensor id"), device))
      /\ (0 <= sensor_id ->
            Pmt.get_sensor_name device sensor_id
            = (s <- fst (Pmt.read device) ;;
               n <- State_name s sensor_id ;;
               rust_String n,
               snd (Pmt.read device))
            /\ forall e, fst (Pmt.get_sensor_name device sensor_id) = Throw e ->
                         fst (Pmt.read device) = Throw e
                         \/ (e = std_exception not_utf8
                             /\ exists s n,
                                  fst (Pmt.read device) = Ok s
                                  /\ State_name s sensor_id = Ok n
                                  /\ is_utf8 n = false)))
  /\
  (forall (L : Powersensor3.PowerSensor3Library) (sensor : Powersensor3.PowerSensor),
      (sensor_id < 0 ->
         Powersensor3.get_sensor_name sensor sensor_id
         = Throw (runtime_error "Invalid sensor id"))
      /\ (0 <= sensor_id ->
            Powersensor3.get_sensor_name sensor sensor_id
            = (n <- Powersensor3.PowerSensor_getPairName sensor sensor_id ;;
               rust_String n))).
Proof.
  split.
  - intros L device. split.
    + intros Hneg. unfold Pmt.get_sensor_name.
      replace (sensor_id <? 0) with true by (symmetry; apply Z.ltb_lt; exact Hneg).
      reflexivity.
    + intros Hpos.
      assert (E : Pmt.get_sensor_name device sensor_id
                  = (s <- fst (Pmt.read device) ;;
                     n <- State_name s sensor_id ;;
                     rust_String n,
                     snd (Pmt.read device))).
      { unfold Pmt.get_sensor_name, Pmt.read.
        replace (sensor_id <? 0) with false by (symmetry; apply Z.ltb_ge; exact Hpos).
        destruct (Pmt.PMT_Read device) as [st device']. reflexivity. }
      split; [exact E|].
      intros e. rewrite E. simpl.
      destruct (fst (Pmt.read device)) as [s| e' |]; simpl; try discriminate.
      * unfold State_name. pose proof (State_at_no_throw s sensor_id) as Hat.
        destruct (State_at s sensor_id) as [p| e' |] eqn:Ep; simpl; try discriminate.
        -- destruct (rust_String_cases (name p)) as [[_ Hr]|[Hu Hr]];
             rewrite Hr; [discriminate|].
           intros Heq. right. split; [congruence|].
           exists s, (name p). repeat split; [|exact Hu].
           unfold State_name. rewrite Ep. reflexivity.
        -- intros _. exfalso. exact (Hat e' eq_refl).
      * intros Heq. left. inversion Heq. reflexivity.
  - intros L sensor. unfold Powersensor3.get_sensor_name. split.
    + intros Hneg.
      replace (sensor_id <? 0) with true by (symmetry; apply Z.ltb_lt; exact Hneg).
      reflexivity.
    + intros Hpos.
      replace (sensor_id <? 0) with false by (symmetry; apply Z.ltb_ge; exact Hpos).
      reflexivity.
Qed.

(** The theorem at index -1 and at index 1 of the scripted PMT device, whose
    next read gives the scenario's start snapshot: the name is "dram" and
    the read has been consumed; and at index 1 of the device whose next read
    gives a snapshot with a Latin-1 name: the conversion throws. *)
Lemma get_sensor_name_contract_witness :
  -1 < 0
  /\ @Pmt.get_sensor_name Samples.scripted_pmt [Ok Samples.scenario_start] (-1)
     = (Throw (runtime_error "Invalid sensor id"), [Ok Samples.scenario_start])
  /\ 0 <= 1
  /\ @Pmt.get_sensor_name Samples.scripted_pmt [Ok Samples.scenario_start] 1
     = (Ok "dram", [])
  /\ @Pmt.get_sensor_name Samples.scripted_pmt [Ok Samples.latin1_snapshot] 1
     = (Throw (std_exception not_utf8), []).
Proof.
  split; [reflexivity|]. split.
  - apply (proj1 (proj1 (get_sensor_name_contract (-1))
                    Samples.scripted_pmt [Ok Samples.scenario_start])).
    reflexivity.
  - split; [discriminate|]. split.
    + destruct (proj2 (proj1 (get_sensor_name_contract 1)
                         Samples.scripted_pmt [Ok Samples.scenario_start]))
        as [E _].
      * discriminate.
      * rewrite E. reflexivity.
    + destruct (proj2 (proj1 (get_sensor_name_contract 1)
                         Samples.scripted_pmt [Ok Samples.latin1_snapshot]))
        as [E _].
      * discriminate.
      * rewrite E. reflexivity.
Defined.

(* ================================================================= *)
(** * Further properties of the wrappers                              *)
(* ================================================================= *)

(** ** More binary64 facts *)

(** The sign given to the rounding only ends up as the sign of the result. *)
Lemma binary_round_aux_negb (s : bool) (mx ex : Z) (lx : location) :
  binary_round_aux 53 1024 (negb s) mx ex lx
  = SFopp (binary_round_aux 53 1024 s mx ex lx).
Proof.
  unfold binary_round_aux.
  destruct (shr_fexp 53 1024 mx ex lx) as [mrs' e'].
  destruct (shr_fexp 53 1024 _ e' loc_Exact) as [mrs'' e''].
  destruct (shr_m mrs'') as [|m|m]; simpl; try reflexivity.
  destruct (e'' <=? 971); reflexivity.
Qed.

Lemma binary_round_true (m : positive) (e : Z) :
  binary_round 53 1024 true m e = SFopp (binary_round 53 1024 false m e).
Proof.
  unfold binary_round.
  destruct (shl_align m e _) as [mz ez].
  apply (binary_round_aux_negb false).
Qed.

Lemma SFopp_involutive (x : double) : SFopp (SFopp x) = x.
Proof. destruct x as [s|s| |s m e]; simpl; try rewrite negb_involutive; reflexivity. Qed.

(** Swapping the operands of a subtraction changes the sign of the result,
    except that a difference that cancels exactly is [+0] both ways. *)
Lemma fsub_swap (x y : double) :
  fsub x y = SFopp (fsub y x)
  \/ (fsub x y = S754_zero false /\ fsub y x = S754_zero false).
Proof.
  destruct x as [sx|sx| |sx mx ex], y as [sy|sy| |sy my ey]; simpl;
    try (left; reflexivity);
    try (destruct sx, sy; simpl; auto; fail);
    try (left; rewrite negb_involutive; reflexivity).
  unfold SFsub. rewrite (Z.min_comm ey ex).
  set (ez := Z.min ex ey).
  set (a := cond_Zopp sx (Z.pos (fst (shl_align mx ex ez)))).
  set (b := cond_Zopp sy (Z.pos (fst (shl_align my ey ez)))).
  replace (Z.sub b a) with (Z.opp (Z.sub a b)) by ring.
  destruct (Z.sub a b) as [|p|p]; simpl.
  - right. split; reflexivity.
  - left. rewrite binary_round_true, SFopp_involutive. reflexivity.
  - left. apply binary_round_true.
Qed.

(** A quotient does not change when both operands change sign. *)
Lemma fdiv_opp_opp (x y : double) : fdiv (SFopp x) (SFopp y) = fdiv x y.
Proof.
  destruct x as [sx|sx| |sx mx ex], y as [sy|sy| |sy my ey]; simpl;
    try reflexivity; destruct sx, sy; reflexivity.
Qed.

(** Zero over anything but a zero or a NaN is a zero. *)
Lemma fdiv_zero_numerator (j s : double) :
  is_zero j = true -> is_zero s = false -> s <> S754_nan ->
  is_zero (fdiv j s) = true.
Proof.
  destruct j as [sj|sj| |sj mj ej]; simpl; try discriminate; intros _.
  destruct s as [ss|ss| |ss ms es]; simpl; try discriminate; try reflexivity.
  intros _ Hn. contradiction.
Qed.

(** ** Reading a value of [Joules] backwards *)

Section JoulesInversion.

Context {F : Type} `{Arith F}.

(** A value returned in single-channel mode is the difference of two
    readings that both exist. *)
Lemma Joules_nonneg_inv (a b : State F) (k : Z) (j : F) :
  0 <= k -> Pmt.Joules a b k = Ok j ->
  exists x y, State_joules a k = Ok x /\ State_joules b k = Ok y /\ j = fsub y x.
Proof.
  intros Hk Hj. rewrite Joules_nonneg in Hj by exact Hk.
  destruct (State_joules b k) as [y| |]; simpl in Hj; try discriminate.
  destruct (State_joules a k) as [x| |]; simpl in Hj; try discriminate.
  exists x, y. repeat split. congruence.
Qed.

(** A reading exists exactly inside the bounds. *)
Lemma State_joules_Ok_iff (s : State F) (i : Z) :
  (exists x, State_joules s i = Ok x) <-> 0 <= i < NrMeasurements s.
Proof.
  split.
  - intros [x Hx].
    destruct (Z.lt_ge_cases i 0) as [Hneg|Hpos].
    + rewrite State_joules_out_of_range in Hx by (left; exact Hneg). discriminate.
    + destruct (Z.lt_ge_cases i (NrMeasurements s)) as [Hlt|Hge]; [lia|].
      rewrite State_joules_out_of_range in Hx by (right; exact Hge). discriminate.
  - intros Hi. destruct (State_joules_in_range s i Hi) as [p [_ Hp]].
    exists (joules p). exact Hp.
Qed.

End JoulesInversion.

(** ** When [Joules] and [Watt] return a value *)

Section Definedness.

Context {F : Type} `{ArithDiv F}.

(** Past the end of either snapshot, single-channel mode is undefined. *)
Lemma Joules_out_of_either (a b : State F) (k : Z) :
  0 <= k -> NrMeasurements a <= k \/ NrMeasurements b <= k ->
  Pmt.Joules a b k = Undefined.
Proof.
  intros Hk Hout. rewrite Joules_nonneg by exact Hk.
  destruct Hout as [Ha|Hb].
  - rewrite (State_joules_out_of_range a k) by (right; exact Ha).
    pose proof (State_joules_no_throw b k) as Hb.
    destruct (State_joules b k) as [y| e |]; simpl; try reflexivity.
    exfalso. exact (Hb e eq_refl).
  - rewrite (State_joules_out_of_range b k) by (right; exact Hb). reflexivity.
Qed.

Lemma Joules_value_when (a b : State F) (k : Z) :
  k < 0 \/ (k < NrMeasurements a /\ k < NrMeasurements b) ->
  exists v, Pmt.Joules a b k = Ok v.
Proof.
  intros Hin. destruct (Z.lt_ge_cases k 0) as [Hneg|Hpos].
  - eexists. apply Joules_negative. exact Hneg.
  - destruct Hin as [Hneg|[Ha Hb]]; [lia|].
    destruct (Joules_in_range a b k (conj Hpos Ha) (conj Hpos Hb)) as [ps [pe [_ [_ Hv]]]].
    eexists. exact Hv.
Qed.

(** X1.  [Joules] returns a value exactly when the selector is negative or
    lies below the channel count of both snapshots; in every other case,
    that is for a selector from 0 on that reaches the count of either
    snapshot, the call is undefined.  [Watt] returns a value in exactly the
    same cases.  Equal channel counts are not needed. *)
Theorem Joules_returns_iff (a b : State F) (k : Z) :
  ((exists v, Pmt.Joules a b k = Ok v)
   <-> k < 0 \/ (k < NrMeasurements a /\ k < NrMeasurements b))
  /\ (Pmt.Joules a b k = Undefined
      <-> 0 <= k /\ (NrMeasurements a <= k \/ NrMeasurements b <= k))
  /\ ((exists w, Pmt.Watt a b k = Ok w)
      <-> k < 0 \/ (k < NrMeasurements a /\ k < NrMeasurements b)).
Proof.
  assert (Hcases : k < 0 \/ (k < NrMeasurements a /\ k < NrMeasurements b)
                   \/ (0 <= k /\ (NrMeasurements a <= k \/ NrMeasurements b <= k)))
    by lia.
  split; [|split].
  - split; [|apply Joules_value_when].
    intros [v Hv]. destruct Hcases as [Hn|[Hin|[Hk Hout]]]; auto.
    rewrite (Joules_out_of_either a b k Hk Hout) in Hv. discriminate.
  - split.
    + intros Hu. destruct Hcases as [Hn|[Hin|Hout]]; [| |exact Hout].
      * destruct (Joules_value_when a b k (or_introl Hn)) as [v Hv]. congruence.
      * destruct (Joules_value_when a b k (or_intror Hin)) as [v Hv]. congruence.
    + intros [Hk Hout]. apply Joules_out_of_either; assumption.
  - unfold Pmt.Watt. split.
    + intros [w Hw]. destruct Hcases as [Hn|[Hin|[Hk Hout]]]; auto.
      rewrite (Joules_out_of_either a b k Hk Hout) in Hw. discriminate.
    + intros Hin. destruct (Joules_value_when a b k Hin) as [v Hv].
      rewrite Hv. simpl. eexists. reflexivity.
Qed.

End Definedness.

(** The theorem at a two-channel start and a one-channel end: channel 0 has
    a value, channel 1 is past the end of the second snapshot. *)
Lemma Joules_returns_iff_witness :
  (exists v, Pmt.Joules Samples.scenario_start Samples.one_channel 0 = Ok v)
  /\ Pmt.Joules Samples.scenario_start Samples.one_channel 1 = Undefined.
Proof.
  split.
  - apply (proj1 (Joules_returns_iff Samples.scenario_start Samples.one_channel 0)).
    right. vm_compute. split; reflexivity.
  - apply (proj1 (proj2 (Joules_returns_iff Samples.scenario_start Samples.one_channel 1))).
    vm_compute. split; [discriminate|]. right. discriminate.
Defined.

(** ** Three snapshots *)

(** X2.  On doubles the delta is additive across sub-intervals whenever
    nothing rounds.  For three snapshots [a], [b], [c]: in aggregate mode,
    when no step of the loops of the three calls rounds, and in
    single-channel mode, for a channel that exists in all three, when none
    of the three subtractions rounds, the delta from [a] to [c] stands for
    the sum of what the delta from [a] to [b] and the delta from [b] to [c]
    stand for. *)
Theorem Joules_additive (a b c : State double) (k : Z) :
  (k < 0 ->
   aggregate_exactly a c = true ->
   aggregate_exactly a b = true ->
   aggregate_exactly b c = true ->
   exists u v w : double,
     Pmt.Joules a c k = Ok u /\ Pmt.Joules a b k = Ok v /\ Pmt.Joules b c k = Ok w
     /\ (Qval u == Qval v + Qval w)%Q)
  /\
  (forall x y z : double,
     State_joules a k = Ok x ->
     State_joules b k = Ok y ->
     State_joules c k = Ok z ->
     exact_sub z x = true ->
     exact_sub y x = true ->
     exact_sub z y = true ->
     exists u v w : double,
       Pmt.Joules a c k = Ok u /\ Pmt.Joules a b k = Ok v /\ Pmt.Joules b c k = Ok w
       /\ (Qval u == Qval v + Qval w)%Q).
Proof.
  split.
  - intros Hneg Hac Hab Hbc.
    destruct (aggregate_exact_value a c Hac) as [_ Hvac].
    destruct (aggregate_exact_value a b Hab) as [_ Hvab].
    destruct (aggregate_exact_value b c Hbc) as [_ Hvbc].
    do 3 eexists.
    split; [apply Joules_negative; exact Hneg|].
    split; [apply Joules_negative; exact Hneg|].
    split; [apply Joules_negative; exact Hneg|].
    rewrite Hvac, Hvab, Hvbc. ring.
  - intros x y z Hx Hy Hz Hzx Hyx Hzy.
    assert (Hk : 0 <= k < NrMeasurements a)
      by (apply State_joules_Ok_iff; exists x; exact Hx).
    destruct (exact_sub_spec z x Hzx) as [_ Hvzx].
    destruct (exact_sub_spec y x Hyx) as [_ Hvyx].
    destruct (exact_sub_spec z y Hzy) as [_ Hvzy].
    exists (fsub z x), (fsub y x), (fsub z y).
    rewrite !Joules_nonneg by lia. rewrite Hx, Hy, Hz. simpl.
    split; [reflexivity|]. split; [reflexivity|]. split; [reflexivity|].
    change (SFsub 53 1024) with (@fsub double double_Arith).
    rewrite Hvzx, Hvyx, Hvzy. ring.
Qed.

(** The theorem at the scenario with a snapshot in between, channel 0:
    50 J = 20 J + 30 J. *)
Lemma Joules_additive_witness :
  exists u v w : double,
    Pmt.Joules Samples.scenario_start Samples.scenario_end 0 = Ok u
    /\ Pmt.Joules Samples.scenario_start Samples.scenario_mid 0 = Ok v
    /\ Pmt.Joules Samples.scenario_mid Samples.scenario_end 0 = Ok w
    /\ (Qval u == Qval v + Qval w)%Q.
Proof.
  apply (proj2 (Joules_additive Samples.scenario_start Samples.scenario_mid
                  Samples.scenario_end 0)
           (double_of_Z 100) (double_of_Z 120) (double_of_Z 150));
    vm_compute; reflexivity.
Defined.

(** ** Snapshots in the wrong order *)



(** X4.  In single-channel mode [Watt] does not notice snapshots given in
    the wrong order: when the energy delta and the interval are both not
    zero, the swapped call returns the same power, since the delta and the
    interval change sign together. *)
Theorem Watt_swap (a b : State double) (k : Z) (j : double) :
  0 <= k ->
  Pmt.Joules a b k = Ok j ->
  is_zero j = false ->
  is_zero (PMT_seconds a b) = false ->
  Pmt.Watt b a k = Pmt.Watt a b k
  /\ Pmt.Watt a b k = Ok (fdiv j (PMT_seconds a b)).
Proof.
  intros Hk Hj Hjz Hsz.
  assert (Hba : Pmt.Joules b a k = Ok (SFopp j)).
  { destruct (Joules_nonneg_inv a b k j Hk Hj) as [x [y [Hx [Hy ->]]]].
    rewrite Joules_nonneg by exact Hk. rewrite Hx, Hy. simpl.
    change (SFsub 53 1024) with (@fsub double double_Arith).
    destruct (fsub_swap x y) as [Hopp|[_ Hyx]].
    - rewrite Hopp. reflexivity.
    - rewrite Hyx in Hjz. discriminate. }
  assert (Hs : PMT_seconds b a = SFopp (PMT_seconds a b)).
  { unfold PMT_seconds in *.
    destruct (fsub_swap (timestamp a) (timestamp b)) as [Hopp|[_ Hyx]].
    - exact Hopp.
    - rewrite Hyx in Hsz. discriminate. }
  unfold Pmt.Watt. rewrite Hba, Hj, Hs. simpl.
  change (SFdiv 53 1024) with (@fdiv double double_Arith double_ArithDiv). rewrite fdiv_opp_opp. split; reflexivity.
Qed.

(** The theorem at the scenario, channel 0: 25 W in either order. *)
Lemma Watt_swap_witness :
  Pmt.Watt Samples.scenario_end Samples.scenario_start 0
  = Pmt.Watt Samples.scenario_start Samples.scenario_end 0.
Proof.
  apply (Watt_swap Samples.scenario_start Samples.scenario_end 0 (double_of_Z 50)).
  - discriminate.
  - vm_compute. reflexivity.
  - reflexivity.
  - reflexivity.
Defined.

(** X5.  A channel whose finite reading is the same in both snapshots shows
    zero power: [watts] returns a zero whenever the interval is neither a
    zero nor a NaN. *)
Theorem watts_idle_channel (a b : State double) (k : Z) (x : double) :
  State_joules a k = Ok x ->
  State_joules b k = Ok x ->
  is_finite x = true ->
  is_zero (PMT_seconds a b) = false ->
  PMT_seconds a b <> S754_nan ->
  exists w, Pmt.watts a b k = Ok w /\ is_zero w = true.
Proof.
  intros Ha Hb Hfin Hsz Hsn.
  assert (Hk : 0 <= k < NrMeasurements a)
    by (apply State_joules_Ok_iff; exists x; exact Ha).
  unfold Pmt.watts, Pmt.Watt. rewrite Joules_nonneg by lia.
  rewrite Ha, Hb. simpl. change (SFsub 53 1024 x x) with (@fsub double double_Arith x x).
  rewrite (fsub_diag_finite x Hfin).
  eexists. split; [reflexivity|].
  apply (fdiv_zero_numerator (S754_zero false)); [reflexivity | exact Hsz | exact Hsn].
Qed.

(** The theorem at the scenario's start snapshot and the same readings two
    seconds later. *)
Lemma watts_idle_channel_witness :
  exists w, Pmt.watts Samples.scenario_start Samples.scenario_idle_end 1 = Ok w
            /\ is_zero w = true.
Proof.
  apply (watts_idle_channel Samples.scenario_start Samples.scenario_idle_end 1
           (double_of_Z 50)).
  - reflexivity.
  - reflexivity.
  - reflexivity.
  - reflexivity.
  - discriminate.
Defined.

(** ** Channel order *)

(** X6.  On doubles, in aggregate mode, the order in which a snapshot lists
    its channels does not matter as long as nothing rounds: when the
    channels of either snapshot are reordered and no step of the loops
    rounds before or after, the two results stand for the same number. *)
Theorem Joules_aggregate_order_irrelevant (a b a' b' : State double) (k : Z) :
  k < 0 ->
  Permutation (measurements a) (measurements a') ->
  Permutation (measurements b) (measurements b') ->
  aggregate_exactly a b = true ->
  aggregate_exactly a' b' = true ->
  exists v v' : double,
    Pmt.Joules a b k = Ok v /\ Pmt.Joules a' b' k = Ok v' /\ (Qval v == Qval v')%Q.
Proof.
  intros Hk Ha Hb Hex Hex'.
  destruct (aggregate_exact_value a b Hex) as [_ Hv].
  destruct (aggregate_exact_value a' b' Hex') as [_ Hv'].
  do 2 eexists.
  split; [apply Joules_negative; exact Hk|].
  split; [apply Joules_negative; exact Hk|].
  rewrite Hv, Hv'. unfold readings.
  rewrite (Qsum_Permutation _ _ (Permutation_map Qval (Permutation_map joules Ha))).
  rewrite (Qsum_Permutation _ _ (Permutation_map Qval (Permutation_map joules Hb))).
  reflexivity.
Qed.

(** The theorem at the scenario, with the channels of the end snapshot in
    the other order. *)
Lemma Joules_aggregate_order_irrelevant_witness :
  exists v v' : double,
    Pmt.Joules Samples.scenario_start Samples.scenario_end (-1) = Ok v
    /\ Pmt.Joules Samples.scenario_start Samples.scenario_end_reordered (-1) = Ok v'
    /\ (Qval v == Qval v')%Q.
Proof.
  apply (Joules_aggregate_order_irrelevant
           Samples.scenario_start Samples.scenario_end
           Samples.scenario_start Samples.scenario_end_reordered (-1)).
  - reflexivity.
  - apply Permutation_refl.
  - apply perm_swap.
  - vm_compute. reflexivity.
  - vm_compute. reflexivity.
Defined.

(** ** Names through the PMT wrapper *)

(** X7.  For an index that is not negative, the PMT [get_sensor_name] leaves
    the device as its read leaves it and has no bound check of its own.
    When the read throws, the same exception comes out.  When the read
    gives a snapshot, an index below its channel count finds that channel's
    name and returns it if it is well-formed UTF-8 (always so for an ASCII
    name), and throws the conversion's [std::invalid_argument] if it is not;
    an index at or beyond the count indexes outside the snapshot (undefined
    behaviour), without any exception. *)
Theorem Pmt_get_sensor_name_bounds (L : Pmt.PmtLibrary) (device device' : Pmt.PMT)
    (r : outcome (State double)) (sensor_id : Z) :
  Pmt.PMT_Read device = (r, device') ->
  0 <= sensor_id ->
  snd (Pmt.get_sensor_name device sensor_id) = device'
  /\ (forall e, r = Throw e ->
        fst (Pmt.get_sensor_name device sensor_id) = Throw e)
  /\ (forall s, r = Ok s ->
        (sensor_id < NrMeasurements s ->
           exists p, nth_error (measurements s) (Z.to_nat sensor_id) = Some p
                     /\ (is_utf8 (name p) = true ->
                         fst (Pmt.get_sensor_name device sensor_id) = Ok (name p))
                     /\ (is_ascii (name p) = true ->
                         fst (Pmt.get_sensor_name device sensor_id) = Ok (name p))
                     /\ (is_utf8 (name p) = false ->
                         fst (Pmt.get_sensor_name device sensor_id)
                         = Throw (std_exception not_utf8)))
        /\ (NrMeasurements s <= sensor_id ->
              fst (Pmt.get_sensor_name device sensor_id) = Undefined)).
Proof.
  intros Hr Hid. unfold Pmt.get_sensor_name.
  replace (sensor_id <? 0) with false by (symmetry; apply Z.ltb_ge; exact Hid).
  rewrite Hr. simpl. split; [reflexivity|]. split.
  - intros e ->. reflexivity.
  - intros s ->. simpl. unfold State_name. split.
    + intros Hlt. destruct (State_at_in_range s sensor_id (conj Hid Hlt)) as [p [Hn Hp]].
      exists p. split; [exact Hn|]. rewrite Hp. simpl. unfold rust_String.
      split; [|split].
      * intros ->. reflexivity.
      * intros Ha. rewrite (is_ascii_is_utf8 _ Ha). reflexivity.
      * intros ->. reflexivity.
    + intros Hge. rewrite State_at_out_of_range by (right; exact Hge). reflexivity.
Qed.

(** The theorem at the scripted device whose next read gives the scenario's
    start snapshot, with index 2, one past its last channel. *)
Lemma Pmt_get_sensor_name_bounds_witness :
  @Pmt.get_sensor_name Samples.scripted_pmt [Ok Samples.scenario_start] 2
  = (Undefined, []).
Proof.
  destruct (Pmt_get_sensor_name_bounds Samples.scripted_pmt
              [Ok Samples.scenario_start] [] (Ok Samples.scenario_start) 2
              eq_refl) as [Hd [_ Hs]].
  - discriminate.
  - destruct (Hs Samples.scenario_start eq_refl) as [_ Hout].
    rewrite (surjective_pairing (Pmt.get_sensor_name _ 2)).
    rewrite Hd, Hout; [reflexivity|]. vm_compute. discriminate.
Defined.

(** ** Exceptions through the PowerSensor3 wrapper *)

Lemma rethrow_Ok_iff {A : Type} (m : outcome A) (a : A) :
  rethrow_as_runtime_error m = Ok a <-> m = Ok a.
Proof.
  destruct m as [x|[w|w|]|]; simpl; split; intros Hm; try discriminate; exact Hm.
Qed.

Lemma rethrow_runtime_error_iff {A : Type} (m : outcome A) (w : string) :
  rethrow_as_runtime_error m = Throw (runtime_error w)
  <-> m = Throw (runtime_error w) \/ m = Throw (std_exception w).
Proof.
  destruct m as [x|[w'|w'|]|]; simpl; split;
    try (intros Hm; discriminate);
    try (intros [Hm|Hm]; discriminate).
  - intros Hm. left. exact Hm.
  - intros [Hm|Hm]; [exact Hm | discriminate].
  - intros Hm. right. congruence.
  - intros [Hm|Hm]; [discriminate | congruence].
Qed.

Lemma rethrow_never_std_exception {A : Type} (m : outcome A) (w : string) :
  rethrow_as_runtime_error m <> Throw (std_exception w).
Proof. destruct m as [x|[w'|w'|]|]; simpl; discriminate. Qed.

(** X8.  The PowerSensor3 [create] and [read] hand on what the library gives
    and normalise what it throws: they return a handle or a state exactly
    when the library call does; they throw a runtime error with text [w]
    exactly when the library call threw an exception derived from
    [std::exception] whose text is [w]; no other class derived from
    [std::exception] ever leaves them. *)
Theorem Powersensor3_exceptions_normalised (L : Powersensor3.PowerSensor3Library)
    (device : string) (sensor : Powersensor3.PowerSensor) :
  ((forall h, Powersensor3.create device = Ok h
              <-> Powersensor3.PowerSensor_new device = Ok h)
   /\ (forall w, Powersensor3.create device = Throw (runtime_error w)
                 <-> Powersensor3.PowerSensor_new device = Throw (runtime_error w)
                     \/ Powersensor3.PowerSensor_new device = Throw (std_exception w))
   /\ (forall w, Powersensor3.create device <> Throw (std_exception w)))
  /\
  ((forall st, Powersensor3.read sensor = Ok st
               <-> Powersensor3.PowerSensor_read sensor = Ok st)
   /\ (forall w, Powersensor3.read sensor = Throw (runtime_error w)
                 <-> Powersensor3.PowerSensor_read sensor = Throw (runtime_error w)
                     \/ Powersensor3.PowerSensor_read sensor = Throw (std_exception w))
   /\ (forall w, Powersensor3.read sensor <> Throw (std_exception w))).
Proof.
  unfold Powersensor3.create, Powersensor3.read. split; split.
  - intros h. apply rethrow_Ok_iff.
  - split; [intros w; apply rethrow_runtime_error_iff
           | intros w; apply rethrow_never_std_exception].
  - intros st. apply rethrow_Ok_iff.
  - split; [intros w; apply rethrow_runtime_error_iff
           | intros w; apply rethrow_never_std_exception].
Qed.

(** The theorem at the unplugged device: the library's "device lost", thrown
    as some [std::exception], arrives as a runtime error with that text. *)
Lemma Powersensor3_exceptions_normalised_witness :
  @Powersensor3.read Samples.unplugged_powersensor ["pair0"; "pair1"]
  = Throw (runtime_error "device lost").
Proof.
  apply (proj1 (proj2 (proj2 (Powersensor3_exceptions_normalised
                                 Samples.unplugged_powersensor "/dev/ttyACM0"
                                 ["pair0"; "pair1"])))).
  right. reflexivity.
Defined.
